(** * A shallow embedding of kubernetes-resources/app.py

    The service is a FastAPI application with four GET routes.  We model:
    - the process environment [os.environ] as a [gmap string string] and the
      module-level [APP_VERSION = os.getenv("APP_VERSION", "v1")];
    - JSON values and HTTP responses as the handlers build them;
    - the handlers in a small state/exception monad whose state is the
      process log and the state of Python's [random] generator;
    - the routing done by FastAPI/Starlette for the routes the module
      declares (and the documentation routes FastAPI adds by default).

    Python floats are IEEE-754 doubles: the arithmetic of [random.uniform]
    is computed in [Q] with every operation rounded to the nearest double
    ([fl]).  The floats that occur in responses are all of the form
    [round(x, 2)]; we represent such a float by its number of hundredths
    (the float nearest to [k/100]).

    Strings are byte strings.  A value read from the environment is the
    raw bytes of the variable; Python decodes them as UTF-8 with
    [surrogateescape], so a value that is not valid UTF-8 becomes a [str]
    holding lone surrogates, which cannot be encoded back to UTF-8. *)

From Stdlib Require Import ZArith QArith Qround Qpower String Ascii List Bool Lia Lqa.
From stdpp Require Import base gmap strings.
Import ListNotations.

Set Warnings "-register-all".
Open Scope string_scope.

(* ------------------------------------------------------------------ *)
(** ** Environment and configuration *)

(** [os.getenv(key, default)]: the value of the variable when it is set
    (whatever it is, the empty string included), [default] otherwise. *)
Definition getenv (env : gmap string string) (key default : string) : string :=
  match env !! key with
  | Some v => v
  | None => default
  end.

(** Line 14: [APP_VERSION = os.getenv("APP_VERSION", "v1")], evaluated once
    when the module is imported (the value as the raw bytes of the
    variable). *)
Definition APP_VERSION_of (env : gmap string string) : string :=
  getenv env "APP_VERSION" "v1".

(* ------------------------------------------------------------------ *)
(** ** JSON values and responses *)

(** The values the handlers return.  [JFloat k] is the Python float nearest
    to [k/100], i.e. the result of a [round(_, 2)]. *)
Inductive json :=
| JStr (s : string)
| JFloat (hundredths : Z)
| JObj (fields : list (string * json)).

Inductive endpoint :=
| OpenAPI | SwaggerUI | SwaggerRedirect | ReDoc
| Root | Version | Health | Predict.

(** A response body: JSON, plain text, empty (redirects), or one of the
    pages FastAPI itself generates for its documentation routes. *)
Inductive body :=
| BJson (j : json)
| BText (s : string)
| BEmpty
| BFrameworkPage (e : endpoint).

Record response := {
  status_code : Z;
  headers : list (string * string);
  resp_body : body
}.

(** Field lookup in a JSON object (Python dicts keep insertion order; the
    handlers never repeat a key). *)
Fixpoint assoc (k : string) (l : list (string * json)) : option json :=
  match l with
  | [] => None
  | (k', v) :: rest => if String.eqb k k' then Some v else assoc k rest
  end.

Definition json_field (r : response) (k : string) : option json :=
  match resp_body r with
  | BJson (JObj fs) => assoc k fs
  | _ => None
  end.

Definition json_keys (r : response) : option (list string) :=
  match resp_body r with
  | BJson (JObj fs) => Some (map fst fs)
  | _ => None
  end.

(* ------------------------------------------------------------------ *)
(** ** Serialisation *)

Definition chr (n : nat) : string := String (ascii_of_nat n) EmptyString.

Definition digit (d : Z) : string := chr (48 + Z.to_nat d).

(** [repr] (and [json.dumps]) of the float nearest to [k/100] for
    [0 <= k < 100]: Python prints the shortest decimal string that reads
    back to the same float, so a trailing zero is dropped ([0.7], not
    [0.70]). *)
Definition py_float_repr (k : Z) : string :=
  let t := (k / 10)%Z in
  let u := (k mod 10)%Z in
  if Z.eqb u 0 then "0." ++ digit t else "0." ++ digit t ++ digit u.

(** Number of digits after the decimal point of a printed number. *)
Fixpoint digits_after_point (s : string) : nat :=
  match s with
  | EmptyString => 0
  | String c rest =>
      if Ascii.eqb c "."%char then String.length rest else digits_after_point rest
  end.

(** [json.dumps] string escaping with [ensure_ascii=False]: quote,
    backslash and control characters are escaped. *)
Definition hex_digit (n : nat) : string :=
  if Nat.ltb n 10 then chr (48 + n) else chr (87 + n).

Fixpoint json_escape (s : string) : string :=
  match s with
  | EmptyString => EmptyString
  | String c rest =>
      let n := nat_of_ascii c in
      let e :=
        if Nat.eqb n 34 then chr 92 ++ chr 34
        else if Nat.eqb n 92 then chr 92 ++ chr 92
        else if Nat.eqb n 10 then chr 92 ++ "n"
        else if Nat.eqb n 13 then chr 92 ++ "r"
        else if Nat.eqb n 9 then chr 92 ++ "t"
        else if Nat.eqb n 8 then chr 92 ++ "b"
        else if Nat.eqb n 12 then chr 92 ++ "f"
        else if Nat.ltb n 32 then chr 92 ++ "u00" ++ hex_digit (Nat.div n 16) ++ hex_digit (Nat.modulo n 16)
        else String c EmptyString in
      e ++ json_escape rest
  end.

(** Starlette's [JSONResponse.render]: [json.dumps(content,
    ensure_ascii=False, allow_nan=False, indent=None,
    separators=(",", ":"))]. *)
Fixpoint json_dumps (j : json) : string :=
  match j with
  | JStr s => chr 34 ++ json_escape s ++ chr 34
  | JFloat k => py_float_repr k
  | JObj fs =>
      let fix fields (l : list (string * json)) : string :=
        match l with
        | [] => EmptyString
        | [(k, v)] => chr 34 ++ json_escape k ++ chr 34 ++ ":" ++ json_dumps v
        | (k, v) :: rest =>
            chr 34 ++ json_escape k ++ chr 34 ++ ":" ++ json_dumps v ++ "," ++ fields rest
        end in
      "{" ++ fields fs ++ "}"
  end.

(** Strict UTF-8 well-formedness (the Unicode table of well-formed byte
    sequences, which Python's codec follows): a byte string is valid UTF-8
    exactly when the [str] Python decodes from it with [surrogateescape]
    encodes back to UTF-8 without error. *)
Inductive cont_range := AnyCont | FromA0 | To9F | From90 | To8F.

Definition in_cont_range (r : cont_range) (b : nat) : bool :=
  match r with
  | AnyCont => Nat.leb 128 b && Nat.leb b 191
  | FromA0 => Nat.leb 160 b && Nat.leb b 191
  | To9F => Nat.leb 128 b && Nat.leb b 159
  | From90 => Nat.leb 144 b && Nat.leb b 191
  | To8F => Nat.leb 128 b && Nat.leb b 143
  end.

(** Between two characters, or inside one: the range allowed for the next
    byte and the number of continuation bytes after it. *)
Inductive u8state := U8Start | U8Need (next : cont_range) (more : nat).

Definition u8_step (st : u8state) (b : nat) : option u8state :=
  match st with
  | U8Start =>
      if Nat.ltb b 128 then Some U8Start
      else if Nat.leb 194 b && Nat.leb b 223 then Some (U8Need AnyCont 0)
      else if Nat.eqb b 224 then Some (U8Need FromA0 1)
      else if Nat.leb 225 b && Nat.leb b 236 then Some (U8Need AnyCont 1)
      else if Nat.eqb b 237 then Some (U8Need To9F 1)
      else if Nat.leb 238 b && Nat.leb b 239 then Some (U8Need AnyCont 1)
      else if Nat.eqb b 240 then Some (U8Need From90 2)
      else if Nat.leb 241 b && Nat.leb b 243 then Some (U8Need AnyCont 2)
      else if Nat.eqb b 244 then Some (U8Need To8F 2)
      else None
  | U8Need r more =>
      if in_cont_range r b then
        Some (match more with 0 => U8Start | S k => U8Need AnyCont k end)
      else None
  end.

Fixpoint u8_run (st : u8state) (s : string) : option u8state :=
  match s with
  | EmptyString => Some st
  | String c rest =>
      match u8_step st (nat_of_ascii c) with
      | Some st' => u8_run st' rest
      | None => None
      end
  end.

Definition valid_utf8 (s : string) : bool :=
  match u8_run U8Start s with Some U8Start => true | _ => false end.

(** Strings of ASCII characters only, and a string between double
    quotes, for describing rendered texts. *)
Fixpoint ascii_only (s : string) : bool :=
  match s with
  | EmptyString => true
  | String c rest => Nat.ltb (nat_of_ascii c) 128 && ascii_only rest
  end.

Definition quoted (s : string) : string := chr 34 ++ s ++ chr 34.

(** [str(dict)] as used in the log line of [predict] (the strings it
    prints contain no quote or backslash). *)
Fixpoint py_repr (j : json) : string :=
  match j with
  | JStr s => "'" ++ s ++ "'"
  | JFloat k => py_float_repr k
  | JObj fs =>
      let fix fields (l : list (string * json)) : string :=
        match l with
        | [] => EmptyString
        | [(k, v)] => "'" ++ k ++ "': " ++ py_repr v
        | (k, v) :: rest => "'" ++ k ++ "': " ++ py_repr v ++ ", " ++ fields rest
        end in
      "{" ++ fields fs ++ "}"
  end.

(* ------------------------------------------------------------------ *)
(** ** Python's [random] module *)

(** The two primitives of [random.Random] the handler reaches:
    [_randbelow(n)] and [random()], as functions of the generator state.
    [choice] and [uniform] are written below as in [random.py]. *)
Class PyRandom (G : Type) := {
  randbelow : Z -> G -> Z * G;
  random : G -> Q * G
}.

(** The documented contract of the primitives: [_randbelow(n)] returns an
    integer in [[0, n)] and [random()] a float in [[0.0, 1.0)]. *)
Class PyRandomSpec (G : Type) `{PyRandom G} : Prop := {
  randbelow_range : forall n g, (0 < n)%Z -> (0 <= fst (randbelow n g) < n)%Z;
  random_range : forall g, (0 <= fst (random g))%Q /\ (fst (random g) < 1)%Q
}.

(* ------------------------------------------------------------------ *)
(** ** The handler monad: process log and generator state, and exceptions *)

Record AppState (G : Type) := {
  st_log : list string;
  st_rng : G
}.
Arguments st_log {G}.
Arguments st_rng {G}.

(** A computation either returns ([Some]) or raises ([None]). *)
Definition M (G A : Type) : Type := AppState G -> option A * AppState G.

Definition retM {G A} (a : A) : M G A := fun s => (Some a, s).

Definition bindM {G A B} (c : M G A) (k : A -> M G B) : M G B :=
  fun s => match c s with
           | (Some a, s') => k a s'
           | (None, s') => (None, s')
           end.

Definition raiseM {G A} : M G A := fun s => (None, s).

Notation "x <- c ;; k" := (bindM c (fun x => k))
  (at level 100, c at next level, right associativity).

(** [logger.info(msg)]: appends one line to the process log (the handler
    writing to stderr swallows its own errors). *)
Definition log_info {G} (msg : string) : M G unit :=
  fun s => (Some tt, {| st_log := st_log s ++ [msg]; st_rng := st_rng s |}).

Definition rand_below {G} `{PyRandom G} (n : Z) : M G Z :=
  fun s => let (r, g') := randbelow n (st_rng s) in
           (Some r, {| st_log := st_log s; st_rng := g' |}).

Definition rand_random {G} `{PyRandom G} : M G Q :=
  fun s => let (x, g') := random (st_rng s) in
           (Some x, {| st_log := st_log s; st_rng := g' |}).

(** Python indexing [seq[i]]: negative indices count from the end, an
    index out of range raises [IndexError]. *)
Definition py_index {A} (seq : list A) (i : Z) : option A :=
  if (i <? 0)%Z then
    if (Z.of_nat (length seq) + i <? 0)%Z then None
    else nth_error seq (Z.to_nat (Z.of_nat (length seq) + i))
  else nth_error seq (Z.to_nat i).

(** [Random.choice(seq)]: raises on an empty sequence, otherwise
    [seq[self._randbelow(len(seq))]]. *)
Definition choice {G A} `{PyRandom G} (seq : list A) : M G A :=
  if Nat.eqb (length seq) 0 then raiseM
  else i <- rand_below (Z.of_nat (length seq)) ;;
       match py_index seq i with Some x => retM x | None => raiseM end.

(** Rounding to the nearest integer, ties to even, as Python's [round]
    does. *)
Definition round_half_even (q : Q) : Z :=
  let f := Qfloor q in
  match Qcompare (q - inject_Z f) (1 # 2) with
  | Lt => f
  | Gt => (f + 1)%Z
  | Eq => if Z.even f then f else (f + 1)%Z
  end.

(** [round(x, 2)] of a double [x], as a number of hundredths: CPython
    rounds the exact binary value of [x] correctly to two decimals. *)
Definition round2 (x : Q) : Z := round_half_even (x * 100)%Q.

(** IEEE-754 binary64 rounding, to nearest with ties to even.  [ulp_exp q]
    is, for [q > 0], the exponent [e] with [2^52 <= q / 2^e < 2^53]: the
    estimate from the bit lengths of numerator and denominator is exact or
    one too high. *)
Definition pow2 (e : Z) : Q := Qpower 2 e.

Definition ulp_exp (q : Q) : Z :=
  let e0 := (Z.log2 (Qnum q) - Z.log2 (Zpos (Qden q)) - 52)%Z in
  if Qle_bool (pow2 52) (q / pow2 e0) then e0 else (e0 - 1)%Z.

Definition round_pos (q : Q) : Q :=
  let e := ulp_exp q in inject_Z (round_half_even (q / pow2 e)) * pow2 e.

(** [fl q]: the double nearest to [q], for [q] in the normal range (every
    nonzero value the program rounds lies between [2^-60] and [1]; the
    subnormal range and overflow are not modelled). *)
Definition fl (q : Q) : Q :=
  match Qcompare q 0 with
  | Eq => 0
  | Gt => round_pos q
  | Lt => - round_pos (- q)
  end.

(** [Random.uniform(a, b)]: [a + (b - a) * self.random()] in double
    arithmetic, each operation rounded. *)
Definition uniform_value (a b x : Q) : Q := fl (a + fl (fl (b - a) * x)).

Definition uniform {G} `{PyRandom G} (a b : Q) : M G Q :=
  x <- rand_random ;; retM (uniform_value a b x).

(* ------------------------------------------------------------------ *)
(** ** The handlers (lines 22-53) *)

Section Handlers.
Context {G : Type} `{PyRandom G}.

(** Lines 22-25. *)
Definition root (APP_VERSION : string) : M G json :=
  _ <- log_info "Root endpoint accessed" ;;
  retM (JObj [("message", JStr ("Hello from FastAPI GitOps " ++ APP_VERSION ++ "!"));
              ("status", JStr "running")]).

(** Lines 27-30. *)
Definition version (APP_VERSION : string) : M G json :=
  _ <- log_info "Version endpoint accessed" ;;
  retM (JObj [("version", JStr APP_VERSION); ("app", JStr "FastAPI ML GitOps")]).

(** Lines 32-35. *)
Definition health (APP_VERSION : string) : M G json :=
  _ <- log_info "Health check endpoint accessed" ;;
  retM (JObj [("status", JStr "healthy"); ("version", JStr APP_VERSION)]).

Definition predictions : list string := ["positive"; "negative"; "neutral"].

(** Lines 37-53; the literals [0.7] and [0.99] denote the doubles nearest
    to them. *)
Definition predict : M G json :=
  _ <- log_info "Prediction endpoint accessed" ;;
  prediction <- choice predictions ;;
  drawn <- uniform (fl (7 # 10)) (fl (99 # 100)) ;;
  let confidence := round2 drawn in
  let result := JObj [("prediction", JStr prediction);
                      ("confidence", JFloat confidence);
                      ("model_version", JStr "1.0.0");
                      ("timestamp", JStr "2025-01-27T12:00:00Z")] in
  _ <- log_info ("Prediction made: " ++ py_repr result) ;;
  retM result.

End Handlers.

(* ------------------------------------------------------------------ *)
(** ** Routing (FastAPI on Starlette) *)

Record request := {
  req_method : string;
  req_path : string
}.

(** A route: its path (none has parameters, so the compiled path regex is
    an exact match), its allowed methods and its endpoint. *)
Record route := {
  rt_path : string;
  rt_methods : list string;
  rt_endpoint : endpoint
}.

(** The route table of [app], in registration order.  [FastAPI.setup] adds
    the documentation routes with [add_route] (methods GET and HEAD); the
    [@app.get] decorators add [APIRoute]s whose only method is GET. *)
Definition app_routes : list route :=
  [ {| rt_path := "/openapi.json"; rt_methods := ["GET"; "HEAD"]; rt_endpoint := OpenAPI |};
    {| rt_path := "/docs"; rt_methods := ["GET"; "HEAD"]; rt_endpoint := SwaggerUI |};
    {| rt_path := "/docs/oauth2-redirect"; rt_methods := ["GET"; "HEAD"];
       rt_endpoint := SwaggerRedirect |};
    {| rt_path := "/redoc"; rt_methods := ["GET"; "HEAD"]; rt_endpoint := ReDoc |};
    {| rt_path := "/"; rt_methods := ["GET"]; rt_endpoint := Root |};
    {| rt_path := "/version"; rt_methods := ["GET"]; rt_endpoint := Version |};
    {| rt_path := "/health"; rt_methods := ["GET"]; rt_endpoint := Health |};
    {| rt_path := "/predict"; rt_methods := ["GET"]; rt_endpoint := Predict |} ].

Inductive match_result :=
| Full (rt : route)
| Partial (rt : route)
| NoMatch.

(** The loop of [Router.app]: the first route matching path and method
    wins; otherwise the first route matching only the path. *)
Fixpoint match_routes (rs : list route) (method path : string)
    (partial : option route) : match_result :=
  match rs with
  | [] => match partial with Some rt => Partial rt | None => NoMatch end
  | rt :: rest =>
      if String.eqb (rt_path rt) path then
        if existsb (String.eqb method) (rt_methods rt) then Full rt
        else match_routes rest method path
               (match partial with None => Some rt | Some _ => partial end)
      else match_routes rest method path partial
  end.

Definition is_slash (c : ascii) : bool := Ascii.eqb c "/"%char.

Fixpoint drop_slashes (l : list ascii) : list ascii :=
  match l with
  | c :: rest => if is_slash c then drop_slashes rest else l
  | [] => []
  end.

(** [path.rstrip("/")]. *)
Definition rstrip_slash (p : string) : string :=
  string_of_list_ascii (rev (drop_slashes (rev (list_ascii_of_string p)))).

Definition ends_with_slash (p : string) : bool :=
  match rev (list_ascii_of_string p) with
  | c :: _ => is_slash c
  | [] => false
  end.

(** The path tried by [redirect_slashes]: the trailing slashes removed, or
    one added. *)
Definition redirect_path (p : string) : string :=
  if ends_with_slash p then rstrip_slash p else p ++ "/".

(** [ServerErrorMiddleware] for an exception escaping a handler or the
    rendering of its response. *)
Definition internal_error : response :=
  {| status_code := 500; headers := [("content-type", "text/plain; charset=utf-8")];
     resp_body := BText "Internal Server Error" |}.

(** [JSONResponse(content)] as built for a handler's result: [render]
    returns [json.dumps(...).encode("utf-8")], which raises
    [UnicodeEncodeError] when the text holds a lone surrogate, i.e. when a
    string taken from the environment is not valid UTF-8. *)
Definition json_response (j : json) : response :=
  if valid_utf8 (json_dumps j) then
    {| status_code := 200; headers := [("content-type", "application/json")];
       resp_body := BJson j |}
  else internal_error.

(** FastAPI's [http_exception_handler]:
    [JSONResponse({"detail": exc.detail}, status_code=..., headers=...)]
    (an ASCII text, whose rendering cannot fail). *)
Definition http_exception (code : Z) (detail : string)
    (hdrs : list (string * string)) : response :=
  {| status_code := code; headers := ("content-type", "application/json") :: hdrs;
     resp_body := BJson (JObj [("detail", JStr detail)]) |}.

Fixpoint join (sep : string) (l : list string) : string :=
  match l with
  | [] => EmptyString
  | [x] => x
  | x :: rest => x ++ sep ++ join sep rest
  end.

Section Serve.
Context {G : Type} `{PyRandom G}.

(** Running an endpoint; the documentation pages are generated by FastAPI
    and are not part of this module. *)
Definition run_endpoint (APP_VERSION : string) (e : endpoint) : AppState G -> response * AppState G :=
  fun s =>
    let handler : M G json :=
      match e with
      | Root => root APP_VERSION
      | Version => version APP_VERSION
      | Health => health APP_VERSION
      | Predict => predict
      | _ => fun s => (None, s)
      end in
    match e with
    | OpenAPI | SwaggerUI | SwaggerRedirect | ReDoc =>
        ({| status_code := 200; headers := []; resp_body := BFrameworkPage e |}, s)
    | _ =>
        match handler s with
        | (Some j, s') => (json_response j, s')
        | (None, s') => (internal_error, s')
        end
    end.

(** One HTTP request served by [app] with the configured [APP_VERSION]:
    Starlette's [Router.app] with [redirect_slashes=True] (a full match runs
    the endpoint, a path-only match answers 405, a path that matches after
    toggling the trailing slash is redirected with 307, anything else is
    404).  The [location] header of the redirect holds the path of the URL
    Starlette builds; its scheme and host, taken from the request, are not
    modelled. *)
Definition serve (APP_VERSION : string) (req : request) : AppState G -> response * AppState G :=
  fun s =>
    let path := req_path req in
    match match_routes app_routes (req_method req) path None with
    | Full rt => run_endpoint APP_VERSION (rt_endpoint rt) s
    | Partial rt =>
        (http_exception 405 "Method Not Allowed" [("allow", join ", " (rt_methods rt))], s)
    | NoMatch =>
        if negb (String.eqb path "/") &&
           existsb (fun rt => String.eqb (rt_path rt) (redirect_path path)) app_routes
        then ({| status_code := 307; headers := [("location", redirect_path path)];
                 resp_body := BEmpty |}, s)
        else (http_exception 404 "Not Found" [], s)
    end.

(** The running app: [APP_VERSION] read from the environment at import,
    then requests served one after another.  The app runs only when the
    import succeeds ([import_app] below); [process_serve] adds that
    condition. *)
Definition app_serve (env : gmap string string) (req : request) : AppState G -> response * AppState G :=
  serve (APP_VERSION_of env) req.

End Serve.

(** Importing app.py: line 16 calls [FastAPI(title=..., version=APP_VERSION,
    ...)], whose constructor asserts [self.title] and [self.version] since
    [openapi_url] keeps its default; an empty version raises
    [AssertionError], the import fails and no request is ever served.  On
    success, the version the app serves with. *)
Definition import_app (env : gmap string string) : option string :=
  let v := APP_VERSION_of env in
  if String.eqb v "" then None else Some v.

(** A request to the process started in [env]: [None] when the process
    does not start. *)
Definition process_serve {G} `{PyRandom G} (env : gmap string string) (req : request)
    (s : AppState G) : option (response * AppState G) :=
  match import_app env with
  | Some v => Some (serve v req s)
  | None => None
  end.

Definition response_of {G} `{PyRandom G} (env : gmap string string) (req : request)
    (s : AppState G) : option response :=
  option_map fst (process_serve env req s).

(* ------------------------------------------------------------------ *)
(** ** A concrete generator, for evaluating the model *)

(** A tape of raw 53-bit draws: [_randbelow(n)] takes the next draw modulo
    [n], [random()] the next draw divided by [2^53]; an exhausted tape
    yields zeros. *)
Definition tape := list Z.

#[export] Instance tape_random : PyRandom tape := {
  randbelow n g := match g with
                   | w :: rest => ((w mod n)%Z, rest)
                   | [] => (0%Z, [])
                   end;
  random g := match g with
              | w :: rest => ((w mod 2 ^ 53)%Z # (2 ^ 53)%positive, rest)
              | [] => (0%Q, [])
              end
}.

Definition GET (p : string) : request := {| req_method := "GET"; req_path := p |}.

Definition start (g : tape) : AppState tape := {| st_log := []; st_rng := g |}.

(** The spec-side reading of a timestamp: an ISO-8601 UTC instant
    [YYYY-MM-DDTHH:MM:SSZ] with a valid calendar date and time of day. *)
Definition digit_value (c : ascii) : option nat :=
  let n := nat_of_ascii c in
  if Nat.leb 48 n && Nat.leb n 57 then Some (n - 48) else None.

Fixpoint read_number (l : list ascii) : option nat :=
  match l with
  | [] => Some 0
  | c :: rest =>
      match digit_value c, read_number rest with
      | Some d, Some m => Some (d * 10 ^ length rest + m)
      | _, _ => None
      end
  end.

Definition leap_year (y : nat) : bool :=
  (Nat.eqb (y mod 4) 0 && negb (Nat.eqb (y mod 100) 0)) || Nat.eqb (y mod 400) 0.

Definition days_in_month (y m : nat) : nat :=
  match m with
  | 2 => if leap_year y then 29 else 28
  | 4 | 6 | 9 | 11 => 30
  | _ => 31
  end.

Definition iso8601_utc (s : string) : bool :=
  match list_ascii_of_string s with
  | [y1; y2; y3; y4; d1; mo1; mo2; d2; da1; da2; t; h1; h2; c1; mi1; mi2; c2; s1; s2; z] =>
      Ascii.eqb d1 "-"%char && Ascii.eqb d2 "-"%char && Ascii.eqb t "T"%char &&
      Ascii.eqb c1 ":"%char && Ascii.eqb c2 ":"%char && Ascii.eqb z "Z"%char &&
      match read_number [y1; y2; y3; y4], read_number [mo1; mo2], read_number [da1; da2],
            read_number [h1; h2], read_number [mi1; mi2], read_number [s1; s2] with
      | Some y, Some mo, Some da, Some h, Some mi, Some se =>
          Nat.leb 1 mo && Nat.leb mo 12 && Nat.leb 1 da && Nat.leb da (days_in_month y mo) &&
          Nat.ltb h 24 && Nat.ltb mi 60 && Nat.leb se 60
      | _, _, _, _, _, _ => false
      end
  | _ => false
  end.

(** The text [json.dumps] writes for the [confidence] field. *)
Definition serialized_confidence (r : response) : option string :=
  match json_field r "confidence" with
  | Some j => Some (json_dumps j)
  | None => None
  end.

(* ------------------------------------------------------------------ *)
(** ** The test module (test_app.py) *)

Definition has_key (r : response) (k : string) : bool :=
  match json_field r k with Some _ => true | None => false end.

(** [data[k] == v] for a string [v]. *)
Definition str_field_is (r : response) (k v : string) : bool :=
  match json_field r k with Some (JStr x) => String.eqb x v | _ => false end.

(** Lines 7-13. *)
Definition test_root_endpoint (r : response) : bool :=
  Z.eqb (status_code r) 200 && has_key r "message" && has_key r "status" &&
  str_field_is r "status" "running".

(** Lines 15-20. *)
Definition test_version_endpoint (r : response) : bool :=
  Z.eqb (status_code r) 200 && has_key r "version" && has_key r "app".

(** Lines 22-27. *)
Definition test_health_endpoint (r : response) : bool :=
  Z.eqb (status_code r) 200 && str_field_is r "status" "healthy" && has_key r "version".

(** Lines 29-38; [0.0 <= data["confidence"] <= 1.0] on a float of [k]
    hundredths (a non-number makes the comparison raise). *)
Definition test_predict_endpoint (r : response) : bool :=
  Z.eqb (status_code r) 200 && has_key r "prediction" && has_key r "confidence" &&
  has_key r "model_version" && has_key r "timestamp" &&
  existsb (str_field_is r "prediction") ["positive"; "negative"; "neutral"] &&
  match json_field r "confidence" with
  | Some (JFloat k) => Z.leb 0 k && Z.leb k 100
  | _ => false
  end.

(** The module run by pytest: [from app import app] (a failed import is a
    collection error, [None]), then one [TestClient(app)] shared by the
    four tests, run in file order, so the process state flows from one
    request to the next. *)
Definition run_test_module {G} `{PyRandom G} (env : gmap string string)
    (s : AppState G) : option (list bool) :=
  match import_app env with
  | None => None
  | Some v =>
      let (r1, s1) := serve v (GET "/") s in
      let (r2, s2) := serve v (GET "/version") s1 in
      let (r3, s3) := serve v (GET "/health") s2 in
      let (r4, _) := serve v (GET "/predict") s3 in
      Some [test_root_endpoint r1; test_version_endpoint r2;
            test_health_endpoint r3; test_predict_endpoint r4]
  end.

(** The dict [predict] returns, for a label and a confidence in
    hundredths. *)
Definition predict_result (prediction : string) (confidence : Z) : json :=
  JObj [("prediction", JStr prediction);
        ("confidence", JFloat confidence);
        ("model_version", JStr "1.0.0");
        ("timestamp", JStr "2025-01-27T12:00:00Z")].

(** A 53-bit draw for which [random()] makes [predict] report [k]
    hundredths: about [(k - 70) / 29], kept below [1]. *)
Definition draw_for (k : Z) : Z :=
  Z.min (Qfloor (inject_Z (k - 70) / 29 * inject_Z (2 ^ 53))) (2 ^ 53 - 1).

(* ------------------------------------------------------------------ *)
(** ** Auxiliary lemmas *)

#[export] Instance tape_random_spec : PyRandomSpec tape.
Proof.
  split.
  - intros n [|w rest] Hn; simpl.
    + lia.
    + apply Z.mod_pos_bound; exact Hn.
  - intros [|w rest]; simpl.
    + split; [apply Qle_refl | reflexivity].
    + pose proof (Z.mod_pos_bound w (2 ^ 53) ltac:(lia)) as Hb.
      unfold Qle, Qlt; simpl; split; lia.
Qed.

(** *** Double rounding *)

Lemma round_half_even_close (q : Q) :
  (inject_Z (round_half_even q) - q <= 1 # 2)%Q /\ (q - inject_Z (round_half_even q) <= 1 # 2)%Q.
Proof.
  unfold round_half_even. set (f := Qfloor q).
  assert (H1 : (inject_Z f <= q)%Q) by apply Qfloor_le.
  assert (H2 : (q < inject_Z (f + 1))%Q) by apply Qlt_floor.
  assert (H3 : (inject_Z (f + 1) == inject_Z f + 1)%Q) by (rewrite inject_Z_plus; reflexivity).
  destruct (Qcompare (q - inject_Z f) (1 # 2)) eqn:E.
  - apply Qeq_alt in E. destruct (Z.even f); lra.
  - apply Qlt_alt in E. lra.
  - apply Qgt_alt in E. lra.
Qed.

(** A value strictly within half a unit of [[a, b]] rounds into it. *)
Lemma round_half_even_within (a b : Z) (q : Q) :
  (inject_Z a - (1 # 2) < q)%Q -> (q < inject_Z b + (1 # 2))%Q ->
  (a <= round_half_even q <= b)%Z.
Proof.
  intros Ha Hb. destruct (round_half_even_close q) as [C1 C2].
  set (R := round_half_even q) in *.
  split.
  - destruct (Z_lt_le_dec R a) as [Hlt|]; [|assumption].
    assert (HR : (R + 1 <= a)%Z) by lia.
    rewrite Zle_Qle, inject_Z_plus in HR. change (inject_Z 1) with 1%Q in HR. lra.
  - destruct (Z_lt_le_dec b R) as [Hlt|]; [|assumption].
    assert (HR : (b + 1 <= R)%Z) by lia.
    rewrite Zle_Qle, inject_Z_plus in HR. change (inject_Z 1) with 1%Q in HR. lra.
Qed.

Lemma pow2_pos (e : Z) : (0 < pow2 e)%Q.
Proof. apply Qpower_0_lt. lra. Qed.

Lemma pow2_plus (e1 e2 : Z) : (pow2 (e1 + e2) == pow2 e1 * pow2 e2)%Q.
Proof. apply Qpower_plus. discriminate. Qed.

Lemma pow2_Z (e : Z) : (0 <= e)%Z -> (inject_Z (2 ^ e) == pow2 e)%Q.
Proof. intros He. unfold pow2. rewrite Zpower_Qpower by exact He. reflexivity. Qed.

Lemma ulp_exp_spec (q : Q) : (0 < q)%Q -> (pow2 52 <= q / pow2 (ulp_exp q))%Q.
Proof.
  intros Hq. destruct q as [n d].
  assert (Hn : (0 < n)%Z) by (unfold Qlt in Hq; simpl in Hq; lia).
  unfold ulp_exp. simpl Qnum. simpl Qden.
  destruct (Qle_bool (pow2 52) ((n # d) / pow2 (Z.log2 n - Z.log2 (Zpos d) - 52))) eqn:E.
  - apply Qle_bool_iff in E. exact E.
  - apply Qle_shift_div_l; [apply pow2_pos |].
    rewrite <- pow2_plus.
    replace (52 + (Z.log2 n - Z.log2 (Zpos d) - 52 - 1))%Z
      with (Z.log2 n - (Z.log2 (Zpos d) + 1))%Z by lia.
    destruct (Z.log2_spec n Hn) as [Hn1 _].
    destruct (Z.log2_spec (Zpos d) eq_refl) as [_ Hd2].
    assert (Hl1 : (0 <= Z.log2 n)%Z) by apply Z.log2_nonneg.
    assert (Hl2 : (0 <= Z.log2 (Zpos d))%Z) by apply Z.log2_nonneg.
    assert (Hd3 : (Zpos d <= 2 ^ (Z.log2 (Zpos d) + 1))%Z) by (rewrite Z.add_1_r; lia).
    rewrite Qmake_Qdiv.
    apply Qle_shift_div_l; [unfold Qlt; simpl; lia |].
    rewrite Zle_Qle in Hn1, Hd3.
    rewrite pow2_Z in Hn1 by exact Hl1.
    rewrite pow2_Z in Hd3 by lia.
    apply Qle_trans with (pow2 (Z.log2 n - (Z.log2 (Zpos d) + 1)) * pow2 (Z.log2 (Zpos d) + 1))%Q.
    + apply Qmult_le_l; [apply pow2_pos | exact Hd3].
    + rewrite <- pow2_plus.
      replace (Z.log2 n - (Z.log2 (Zpos d) + 1) + (Z.log2 (Zpos d) + 1))%Z with (Z.log2 n) by lia.
      exact Hn1.
Qed.

Lemma round_pos_bounds (q : Q) :
  (0 < q)%Q ->
  (q - q * (1 # 9007199254740992) <= round_pos q <= q + q * (1 # 9007199254740992))%Q.
Proof.
  intros Hq. unfold round_pos.
  set (p := pow2 (ulp_exp q)).
  assert (Hp : (0 < p)%Q) by apply pow2_pos.
  assert (Hm : (pow2 52 <= q / p)%Q) by (apply ulp_exp_spec; exact Hq).
  set (m := (q / p)%Q) in *.
  assert (H52 : (pow2 52 == 4503599627370496)%Q) by (vm_compute; reflexivity).
  rewrite H52 in Hm.
  assert (Hmp : (m * p == q)%Q) by (unfold m; rewrite Qmult_comm; apply Qmult_div_r; lra).
  destruct (round_half_even_close m) as [C1 C2].
  set (R := inject_Z (round_half_even m)) in *.
  assert (E1 : ((R - m) * p <= (1 # 2) * p)%Q) by (apply Qmult_le_compat_r; lra).
  assert (E2 : ((m - R) * p <= (1 # 2) * p)%Q) by (apply Qmult_le_compat_r; lra).
  assert (E3 : (4503599627370496 * p <= m * p)%Q) by (apply Qmult_le_compat_r; lra).
  assert (X1 : ((R - m) * p == R * p - m * p)%Q) by ring.
  assert (X2 : ((m - R) * p == m * p - R * p)%Q) by ring.
  lra.
Qed.

(** The rounding error of a double is at most half a unit in the last
    place: a relative error of at most [2^-53]. *)
Lemma fl_bounds (q : Q) :
  (0 <= q)%Q ->
  (q - q * (1 # 9007199254740992) <= fl q <= q + q * (1 # 9007199254740992))%Q.
Proof.
  intros Hq. unfold fl. destruct (Qcompare q 0) eqn:E.
  - apply Qeq_alt in E. lra.
  - apply Qlt_alt in E. lra.
  - apply Qgt_alt in E. apply round_pos_bounds. exact E.
Qed.

(** [round(random.uniform(0.7, 0.99), 2)] lies between 70 and 99
    hundredths. *)
Lemma confidence_bounds (x : Q) :
  (0 <= x)%Q -> (x < 1)%Q ->
  (70 <= round2 (uniform_value (fl (7 # 10)) (fl (99 # 100)) x) <= 99)%Z.
Proof.
  intros H0 H1. unfold uniform_value, round2.
  replace (fl (fl (99 # 100) - fl (7 # 10))) with (5224175567749776 # 18014398509481984)
    by (vm_compute; reflexivity).
  replace (fl (7 # 10)) with (6305039478318694 # 9007199254740992)
    by (vm_compute; reflexivity).
  set (y := fl ((5224175567749776 # 18014398509481984) * x)).
  assert (Hy : ((5224175567749776 # 18014398509481984) * x
               - (5224175567749776 # 18014398509481984) * x * (1 # 9007199254740992) <= y <=
               (5224175567749776 # 18014398509481984) * x
               + (5224175567749776 # 18014398509481984) * x * (1 # 9007199254740992))%Q)
    by (apply fl_bounds; lra).
  assert (Hz := fl_bounds ((6305039478318694 # 9007199254740992) + y) ltac:(lra)).
  set (z := fl _) in Hz |- *.
  apply round_half_even_within; unfold inject_Z; lra.
Qed.

(** *** UTF-8 validity of the rendered responses *)

Lemma str_app_assoc (a b c : string) : ((a ++ b) ++ c)%string = (a ++ b ++ c)%string.
Proof. induction a as [|x a IH]; [reflexivity | exact (f_equal (String x) IH)]. Qed.

Lemma u8_run_app (st : u8state) (a b : string) :
  u8_run st (a ++ b) = match u8_run st a with Some st' => u8_run st' b | None => None end.
Proof.
  revert st. induction a as [|c a IH]; intros st; simpl; [reflexivity|].
  destruct (u8_step st (nat_of_ascii c)); [apply IH | reflexivity].
Qed.

Lemma u8_step_ascii (st : u8state) (b : nat) :
  (b < 128)%nat -> u8_step st b = match st with U8Start => Some U8Start | U8Need _ _ => None end.
Proof.
  intros Hb. destruct st as [|r k]; unfold u8_step.
  - apply Nat.ltb_lt in Hb. rewrite Hb. reflexivity.
  - assert (E1 : Nat.leb 128 b = false) by (apply Nat.leb_gt; lia).
    assert (E2 : Nat.leb 160 b = false) by (apply Nat.leb_gt; lia).
    assert (E3 : Nat.leb 144 b = false) by (apply Nat.leb_gt; lia).
    destruct r; unfold in_cont_range; rewrite ?E1, ?E2, ?E3; reflexivity.
Qed.

Lemma u8_run_ascii (st : u8state) (e r : string) :
  ascii_only e = true -> e <> EmptyString ->
  u8_run st (e ++ r) = match st with U8Start => u8_run U8Start r | U8Need _ _ => None end.
Proof.
  intros Ha Hne. rewrite u8_run_app.
  destruct e as [|c e]; [congruence|]. cbn [ascii_only] in Ha. cbn [u8_run].
  apply andb_prop in Ha. destruct Ha as [Hc Ha]. apply Nat.ltb_lt in Hc.
  rewrite (u8_step_ascii st _ Hc).
  destruct st; [|reflexivity].
  clear Hne Hc. induction e as [|c' e IH]; cbn [u8_run]; [reflexivity|].
  cbn [ascii_only] in Ha. apply andb_prop in Ha. destruct Ha as [Hc Ha].
  apply Nat.ltb_lt in Hc.
  rewrite (u8_step_ascii U8Start _ Hc). apply IH, Ha.
Qed.

Lemma ascii_only_app (a b : string) : ascii_only (a ++ b) = ascii_only a && ascii_only b.
Proof. induction a as [|c a IH]; simpl; [reflexivity|]. rewrite IH, andb_assoc. reflexivity. Qed.

Lemma ascii_only_chr (n : nat) : (n < 128)%nat -> ascii_only (chr n) = true.
Proof.
  intros Hn. unfold chr. simpl. rewrite nat_ascii_embedding by lia.
  apply Nat.ltb_lt in Hn. rewrite Hn. reflexivity.
Qed.

Lemma ascii_only_hex (n : nat) : (n < 16)%nat -> ascii_only (hex_digit n) = true.
Proof. intros Hn. unfold hex_digit. destruct (Nat.ltb n 10); apply ascii_only_chr; lia. Qed.

(** Escaping only rewrites ASCII characters into ASCII text, so it
    preserves UTF-8 validity, from any decoder state. *)
Lemma u8_run_escape (st : u8state) (v : string) :
  u8_run st (json_escape v) = u8_run st v.
Proof.
  revert st. induction v as [|c v IH]; intros st; [reflexivity|].
  cbn [json_escape u8_run].
  set (n := nat_of_ascii c).
  assert (Hesc : forall e, ascii_only e = true -> e <> EmptyString -> (n < 128)%nat ->
            u8_run st (e ++ json_escape v) =
            match u8_step st n with Some st' => u8_run st' v | None => None end).
  { intros e He Hne Hn. rewrite (u8_run_ascii st e _ He Hne), (u8_step_ascii st n Hn).
    destruct st; [apply IH | reflexivity]. }
  destruct (Nat.eqb n 34) eqn:E34;
    [apply Nat.eqb_eq in E34; apply Hesc; [reflexivity | discriminate | lia]|].
  destruct (Nat.eqb n 92) eqn:E92;
    [apply Nat.eqb_eq in E92; apply Hesc; [reflexivity | discriminate | lia]|].
  destruct (Nat.eqb n 10) eqn:E10;
    [apply Nat.eqb_eq in E10; apply Hesc; [reflexivity | discriminate | lia]|].
  destruct (Nat.eqb n 13) eqn:E13;
    [apply Nat.eqb_eq in E13; apply Hesc; [reflexivity | discriminate | lia]|].
  destruct (Nat.eqb n 9) eqn:E9;
    [apply Nat.eqb_eq in E9; apply Hesc; [reflexivity | discriminate | lia]|].
  destruct (Nat.eqb n 8) eqn:E8;
    [apply Nat.eqb_eq in E8; apply Hesc; [reflexivity | discriminate | lia]|].
  destruct (Nat.eqb n 12) eqn:E12;
    [apply Nat.eqb_eq in E12; apply Hesc; [reflexivity | discriminate | lia]|].
  destruct (Nat.ltb n 32) eqn:E32.
  - apply Nat.ltb_lt in E32. apply Hesc; [| discriminate | lia].
    rewrite !ascii_only_app, !ascii_only_hex; [reflexivity | |].
    + apply Nat.mod_upper_bound. discriminate.
    + apply Nat.Div0.div_lt_upper_bound. lia.
  - change (String c EmptyString ++ json_escape v)%string with (String c (json_escape v)).
    cbn [u8_run]. unfold n.
    destruct (u8_step st (nat_of_ascii c)); [apply IH | reflexivity].
Qed.

Lemma json_escape_app (a b : string) : json_escape (a ++ b) = (json_escape a ++ json_escape b)%string.
Proof.
  induction a as [|c a IH]; [reflexivity|].
  change (String c a ++ b)%string with (String c (a ++ b)).
  cbn [json_escape]. rewrite IH, str_app_assoc. reflexivity.
Qed.

Lemma u8_run_ascii_start (e : string) :
  ascii_only e = true -> u8_run U8Start e = Some U8Start.
Proof.
  induction e as [|c e IH]; intros Ha; [reflexivity|].
  cbn [ascii_only] in Ha. apply andb_prop in Ha. destruct Ha as [Hc Ha].
  apply Nat.ltb_lt in Hc. cbn [u8_run]. rewrite (u8_step_ascii U8Start _ Hc). apply IH, Ha.
Qed.

(** A rendered text made of ASCII around one escaped string is valid
    UTF-8 exactly when that string is. *)
Lemma valid_utf8_frame (pre v post : string) :
  ascii_only pre = true -> ascii_only post = true -> post <> EmptyString ->
  valid_utf8 (pre ++ json_escape v ++ post) = valid_utf8 v.
Proof.
  intros Hpre Hpost Hne. unfold valid_utf8.
  rewrite u8_run_app, (u8_run_ascii_start pre Hpre), u8_run_app, u8_run_escape.
  destruct (u8_run U8Start v) as [[|r k]|]; [| | reflexivity].
  - rewrite (u8_run_ascii_start post Hpost). reflexivity.
  - destruct post as [|c p]; [congruence|].
    cbn [ascii_only] in Hpost. apply andb_prop in Hpost. destruct Hpost as [Hc _].
    apply Nat.ltb_lt in Hc. cbn [u8_run]. rewrite (u8_step_ascii _ _ Hc). reflexivity.
Qed.

Lemma root_json_utf8 (v : string) :
  valid_utf8 (json_dumps (JObj [("message", JStr ("Hello from FastAPI GitOps " ++ v ++ "!"));
                                ("status", JStr "running")])) = valid_utf8 v.
Proof.
  rewrite <- (valid_utf8_frame
                ("{" ++ quoted "message" ++ ":" ++ chr 34 ++ "Hello from FastAPI GitOps ") v
                ("!" ++ chr 34 ++ "," ++ quoted "status" ++ ":" ++ quoted "running" ++ "}"))
    by (reflexivity || discriminate).
  f_equal. simpl. rewrite !json_escape_app, ?str_app_assoc. reflexivity.
Qed.

Lemma version_json_utf8 (v : string) :
  valid_utf8 (json_dumps (JObj [("version", JStr v); ("app", JStr "FastAPI ML GitOps")])) =
    valid_utf8 v.
Proof.
  rewrite <- (valid_utf8_frame ("{" ++ quoted "version" ++ ":" ++ chr 34) v
                (chr 34 ++ "," ++ quoted "app" ++ ":" ++ quoted "FastAPI ML GitOps" ++ "}"))
    by (reflexivity || discriminate).
  f_equal. simpl. rewrite ?str_app_assoc. reflexivity.
Qed.

Lemma health_json_utf8 (v : string) :
  valid_utf8 (json_dumps (JObj [("status", JStr "healthy"); ("version", JStr v)])) = valid_utf8 v.
Proof.
  rewrite <- (valid_utf8_frame
                ("{" ++ quoted "status" ++ ":" ++ quoted "healthy" ++ "," ++ quoted "version" ++ ":" ++ chr 34) v
                (chr 34 ++ "}"))
    by (reflexivity || discriminate).
  f_equal. simpl. rewrite ?str_app_assoc. reflexivity.
Qed.
(** When no route has the requested path, the route loop finds nothing. *)
Lemma match_routes_no_path (rs : list route) (m p : string) (partial : option route) :
  Forall (fun rt => rt_path rt <> p) rs ->
  match_routes rs m p partial =
    match partial with Some rt => Partial rt | None => NoMatch end.
Proof.
  induction 1 as [|rt rest Hrt _ IH]; simpl; [reflexivity|].
  apply String.eqb_neq in Hrt. rewrite Hrt. exact IH.
Qed.

Lemma existsb_no_path (rs : list route) (p : string) :
  Forall (fun rt => rt_path rt <> p) rs ->
  existsb (fun rt => String.eqb (rt_path rt) p) rs = false.
Proof.
  induction 1 as [|rt rest Hrt _ IH]; simpl; [reflexivity|].
  apply String.eqb_neq in Hrt. rewrite Hrt. exact IH.
Qed.

Lemma confidence_digits (k : Z) :
  (70 <= k <= 99)%Z ->
  digits_after_point (py_float_repr k) = (if (k mod 10 =? 0)%Z then 1 else 2)%nat.
Proof.
  intros Hk.
  assert (Hall : forallb (fun n : nat =>
            let k := (70 + Z.of_nat n)%Z in
            Nat.eqb (digits_after_point (py_float_repr k))
                    (if (k mod 10 =? 0)%Z then 1 else 2)%nat) (seq 0 30) = true)
    by reflexivity.
  rewrite forallb_forall in Hall.
  specialize (Hall (Z.to_nat (k - 70))).
  rewrite Z2Nat.id in Hall by lia.
  replace (70 + (k - 70))%Z with k in Hall by lia.
  apply Nat.eqb_eq, Hall, in_seq. lia.
Qed.

Lemma run_endpoint_keeps_rng {G} `{PyRandom G} (V : string) (e : endpoint) (s : AppState G) :
  e <> Predict -> st_rng (snd (run_endpoint V e s)) = st_rng s.
Proof.
  intros Hne.
  destruct e; unfold run_endpoint; try reflexivity. congruence.
Qed.

Lemma match_routes_full (rs : list route) (m p : string) (partial : option route) (rt : route) :
  match_routes rs m p partial = Full rt -> In rt rs /\ rt_path rt = p.
Proof.
  revert partial. induction rs as [|rt' rest IH]; intros partial E; simpl in E.
  - destruct partial; discriminate.
  - destruct (String.eqb (rt_path rt') p) eqn:Ep.
    + destruct (existsb (String.eqb m) (rt_methods rt')).
      * injection E as <-. split; [left; reflexivity | apply String.eqb_eq; exact Ep].
      * destruct (IH _ E) as [Hin Hp]. split; [right; exact Hin | exact Hp].
    + destruct (IH _ E) as [Hin Hp]. split; [right; exact Hin | exact Hp].
Qed.

Lemma match_routes_not_full (rs : list route) (m p : string) :
  Forall (fun rt => rt_path rt <> p \/ ~ In m (rt_methods rt)) rs ->
  forall partial, exists o,
    match_routes rs m p partial = match o with Some rt => Partial rt | None => NoMatch end.
Proof.
  induction 1 as [|rt rest Hrt _ IH]; intros partial; simpl.
  - exists partial. reflexivity.
  - destruct (String.eqb (rt_path rt) p) eqn:Ep; [|apply IH].
    apply String.eqb_eq in Ep.
    destruct (existsb (String.eqb m) (rt_methods rt)) eqn:Ex; [|apply IH].
    apply existsb_exists in Ex. destruct Ex as [x [Hx Heq]].
    apply String.eqb_eq in Heq. subst x.
    destruct Hrt as [Hrt | Hrt]; contradiction.
Qed.

Lemma serve_root_eq {G} `{PyRandom G} (V : string) (s : AppState G) :
  serve V (GET "/") s =
    (json_response (JObj [("message", JStr ("Hello from FastAPI GitOps " ++ V ++ "!"));
                          ("status", JStr "running")]),
     {| st_log := (st_log s ++ ["Root endpoint accessed"])%list; st_rng := st_rng s |}).
Proof. reflexivity. Qed.

Lemma serve_version_eq {G} `{PyRandom G} (V : string) (s : AppState G) :
  serve V (GET "/version") s =
    (json_response (JObj [("version", JStr V); ("app", JStr "FastAPI ML GitOps")]),
     {| st_log := (st_log s ++ ["Version endpoint accessed"])%list; st_rng := st_rng s |}).
Proof. reflexivity. Qed.

Lemma serve_health_eq {G} `{PyRandom G} (V : string) (s : AppState G) :
  serve V (GET "/health") s =
    (json_response (JObj [("status", JStr "healthy"); ("version", JStr V)]),
     {| st_log := (st_log s ++ ["Health check endpoint accessed"])%list; st_rng := st_rng s |}).
Proof. reflexivity. Qed.


(** *** One request to [/predict] *)

Lemma start_rng (g : tape) : st_rng (start g) = g.
Proof. reflexivity. Qed.

Lemma predict_result_utf8 (p : string) (k : Z) :
  In p predictions -> (70 <= k <= 99)%Z -> valid_utf8 (json_dumps (predict_result p k)) = true.
Proof.
  intros Hp Hk.
  assert (Hall : forallb (fun n : nat =>
            forallb (fun p => valid_utf8 (json_dumps (predict_result p (70 + Z.of_nat n))))
              predictions) (seq 0 30) = true) by (vm_compute; reflexivity).
  rewrite forallb_forall in Hall.
  specialize (Hall (Z.to_nat (k - 70)) ltac:(apply in_seq; lia)).
  rewrite Z2Nat.id in Hall by lia.
  replace (70 + (k - 70))%Z with k in Hall by lia.
  rewrite forallb_forall in Hall. apply Hall, Hp.
Qed.

Lemma predict_response (p : string) (k : Z) :
  In p predictions -> (70 <= k <= 99)%Z ->
  json_response (predict_result p k) =
    {| status_code := 200; headers := [("content-type", "application/json")];
       resp_body := BJson (predict_result p k) |}.
Proof. intros Hp Hk. unfold json_response. rewrite predict_result_utf8 by assumption. reflexivity. Qed.

(** What one [GET /predict] does, in terms of the two draws it makes. *)
Lemma serve_predict_run {G} `{PyRandomSpec G} (V : string) (s : AppState G) :
  exists p, In p predictions /\
    (70 <= round2 (uniform_value (fl (7 # 10)) (fl (99 # 100))
                     (fst (random (snd (randbelow 3 (st_rng s)))))) <= 99)%Z /\
    serve V (GET "/predict") s =
      ({| status_code := 200; headers := [("content-type", "application/json")];
          resp_body := BJson (predict_result p
                         (round2 (uniform_value (fl (7 # 10)) (fl (99 # 100))
                                    (fst (random (snd (randbelow 3 (st_rng s)))))))) |},
       {| st_log := (st_log s ++ ["Prediction endpoint accessed";
                      ("Prediction made: " ++ py_repr (predict_result p
                         (round2 (uniform_value (fl (7 # 10)) (fl (99 # 100))
                                    (fst (random (snd (randbelow 3 (st_rng s)))))))))%string])%list;
          st_rng := snd (random (snd (randbelow 3 (st_rng s)))) |}).
Proof.
  unfold serve, run_endpoint, predict, choice, uniform.
  unfold bindM, log_info, rand_below, rand_random, retM, raiseM.
  cbn -[randbelow random round2 py_index py_repr json_response uniform_value fl].
  change (Z.of_nat 3) with 3%Z.
  pose proof (randbelow_range 3 (st_rng s) ltac:(lia)) as Hr.
  destruct (randbelow 3 (st_rng s)) as [i g1] eqn:E1. simpl in Hr |- *.
  pose proof (random_range g1) as [Hlo Hhi].
  assert (Hi : i = 0%Z \/ i = 1%Z \/ i = 2%Z) by lia.
  destruct Hi as [-> | [-> | ->]];
    cbv [py_index predictions Z.ltb Z.compare Z.to_nat Pos.to_nat Pos.iter_op Nat.add nth_error];
    cbn -[random round2 py_repr json_response uniform_value fl];
    destruct (random g1) as [x g2] eqn:E2; simpl in Hlo, Hhi;
    cbn -[round2 py_repr json_response uniform_value fl];
    pose proof (confidence_bounds x Hlo Hhi) as Hk;
    [exists "positive" | exists "negative" | exists "neutral"];
    (split; [simpl; tauto | split; [exact Hk |]]);
    (change (JObj [("prediction", JStr ?p); ("confidence", JFloat ?k);
                   ("model_version", JStr "1.0.0");
                   ("timestamp", JStr "2025-01-27T12:00:00Z")]) with (predict_result p k);
     rewrite predict_response by (simpl; tauto || exact Hk);
     rewrite <- app_assoc; reflexivity).
Qed.

(* ------------------------------------------------------------------ *)
(** ** Claims *)

(** C1 (as claimed, refuted): when [APP_VERSION] holds a byte that is not
    valid UTF-8 (here [0xFF]), the app starts, but [GET /health] answers
    500 [Internal Server Error]: rendering the JSON body fails. *)
Lemma health_non_utf8_version_fails :
  import_app (<["APP_VERSION" := chr 255]> ∅) = Some (chr 255) /\
  response_of (<["APP_VERSION" := chr 255]> ∅) (GET "/health") (start []) = Some internal_error /\
  status_code internal_error = 500%Z.
Proof. split; [| split]; vm_compute; reflexivity. Qed.

(** C1 (amended): once the app has started with version [v] (the value of
    [APP_VERSION], or ["v1"] when it is absent), every [GET /health]
    answers 200 with exactly [{"status": "healthy", "version": v}] when [v]
    is valid UTF-8, and 500 [Internal Server Error] when it is not. *)
Theorem health_returns_configured_version {G} `{PyRandom G}
    (env : gmap string string) (v : string) (s : AppState G) :
  import_app env = Some v ->
  v = match env !! "APP_VERSION" with Some x => x | None => "v1" end /\
  (valid_utf8 v = true ->
   response_of env (GET "/health") s =
     Some {| status_code := 200; headers := [("content-type", "application/json")];
             resp_body := BJson (JObj [("status", JStr "healthy"); ("version", JStr v)]) |}) /\
  (valid_utf8 v = false -> response_of env (GET "/health") s = Some internal_error).
Proof.
  intros Hi. unfold response_of, process_serve. rewrite Hi. cbn [option_map].
  rewrite serve_health_eq. cbn [fst]. unfold json_response. rewrite health_json_utf8.
  split; [| split; intros Hv; rewrite Hv; reflexivity].
  unfold import_app in Hi. destruct (String.eqb _ "") in Hi; [discriminate |].
  injection Hi as <-. reflexivity.
Qed.

Lemma health_returns_configured_version_witness :
  import_app (<["APP_VERSION" := "v2.3"]> ∅) = Some "v2.3" /\
  ("v2.3" = match (<["APP_VERSION" := "v2.3"]> ∅ : gmap string string) !! "APP_VERSION" with
            | Some x => x | None => "v1" end /\
   (valid_utf8 "v2.3" = true ->
    response_of (<["APP_VERSION" := "v2.3"]> ∅) (GET "/health") (start []) =
      Some {| status_code := 200; headers := [("content-type", "application/json")];
              resp_body := BJson (JObj [("status", JStr "healthy"); ("version", JStr "v2.3")]) |}) /\
   (valid_utf8 "v2.3" = false ->
    response_of (<["APP_VERSION" := "v2.3"]> ∅) (GET "/health") (start []) = Some internal_error)).
Proof.
  assert (Hi : import_app (<["APP_VERSION" := "v2.3"]> ∅) = Some "v2.3") by (vm_compute; reflexivity).
  split; [exact Hi |].
  exact (@health_returns_configured_version tape _ _ "v2.3" (start []) Hi).
Defined.

(** C2 (as claimed, refuted): with [APP_VERSION] set to a value that is not
    valid UTF-8 the app starts, but [GET /version] answers 500 and carries
    no [version] field. *)
Lemma version_non_utf8_fails :
  import_app (<["APP_VERSION" := chr 255]> ∅) = Some (chr 255) /\
  response_of (<["APP_VERSION" := chr 255]> ∅) (GET "/version") (start []) = Some internal_error /\
  json_field internal_error "version" = None.
Proof. split; [| split]; vm_compute; reflexivity. Qed.

(** C2 (amended): once the app has started with version [v] (the value of
    [APP_VERSION] when set, ["v1"] when unset), every [GET /version]
    answers 200 with [{"version": v, "app": "FastAPI ML GitOps"}] when [v]
    is valid UTF-8, and 500 [Internal Server Error] when it is not. *)
Theorem version_field_follows_env {G} `{PyRandom G}
    (env : gmap string string) (v : string) (s : AppState G) :
  import_app env = Some v ->
  v = match env !! "APP_VERSION" with Some x => x | None => "v1" end /\
  (valid_utf8 v = true ->
   response_of env (GET "/version") s =
     Some {| status_code := 200; headers := [("content-type", "application/json")];
             resp_body := BJson (JObj [("version", JStr v); ("app", JStr "FastAPI ML GitOps")]) |}) /\
  (valid_utf8 v = false -> response_of env (GET "/version") s = Some internal_error).
Proof.
  intros Hi. unfold response_of, process_serve. rewrite Hi. cbn [option_map].
  rewrite serve_version_eq. cbn [fst]. unfold json_response. rewrite version_json_utf8.
  split; [| split; intros Hv; rewrite Hv; reflexivity].
  unfold import_app in Hi. destruct (String.eqb _ "") in Hi; [discriminate |].
  injection Hi as <-. reflexivity.
Qed.

Lemma version_field_follows_env_witness :
  import_app ∅ = Some "v1" /\
  ("v1" = match (∅ : gmap string string) !! "APP_VERSION" with
          | Some x => x | None => "v1" end /\
   (valid_utf8 "v1" = true ->
    response_of ∅ (GET "/version") (start []) =
      Some {| status_code := 200; headers := [("content-type", "application/json")];
              resp_body := BJson (JObj [("version", JStr "v1"); ("app", JStr "FastAPI ML GitOps")]) |}) /\
   (valid_utf8 "v1" = false -> response_of ∅ (GET "/version") (start []) = Some internal_error)).
Proof.
  assert (Hi : import_app ∅ = Some "v1") by (vm_compute; reflexivity).
  split; [exact Hi |].
  exact (@version_field_follows_env tape _ ∅ "v1" (start []) Hi).
Defined.

(** C3 (code as written): when [APP_VERSION] is set to the empty string,
    [os.getenv] returns it unchanged (no fallback to ["v1"]), the
    [FastAPI] constructor's assertion on the version fails at import, and
    the process serves no request at all. *)
Theorem empty_app_version_fails_startup (env : gmap string string) :
  env !! "APP_VERSION" = Some "" ->
  APP_VERSION_of env = "" /\ APP_VERSION_of env <> "v1" /\
  import_app env = None /\
  (forall (G : Type) (HG : PyRandom G) (req : request) (s : AppState G),
     @process_serve G HG env req s = None).
Proof.
  intros He.
  assert (Hv : APP_VERSION_of env = "") by (unfold APP_VERSION_of, getenv; rewrite He; reflexivity).
  assert (Hi : import_app env = None) by (unfold import_app; rewrite Hv; reflexivity).
  split; [exact Hv | split; [rewrite Hv; discriminate | split; [exact Hi |]]].
  intros G HG req s. unfold process_serve. rewrite Hi. reflexivity.
Qed.

Lemma empty_app_version_fails_startup_witness :
  (<["APP_VERSION" := ""]> ∅ : gmap string string) !! "APP_VERSION" = Some "" /\
  (APP_VERSION_of (<["APP_VERSION" := ""]> ∅) = "" /\
   APP_VERSION_of (<["APP_VERSION" := ""]> ∅) <> "v1" /\
   import_app (<["APP_VERSION" := ""]> ∅) = None /\
   (forall (G : Type) (HG : PyRandom G) (req : request) (s : AppState G),
      @process_serve G HG (<["APP_VERSION" := ""]> ∅) req s = None)).
Proof.
  assert (He : (<["APP_VERSION" := ""]> ∅ : gmap string string) !! "APP_VERSION" = Some "")
    by (vm_compute; reflexivity).
  split; [exact He |].
  exact (empty_app_version_fails_startup _ He).
Defined.

(** C4: every [GET /predict] returns a [prediction] among the three labels
    and a [confidence] that is the drawn value
    [random.uniform(0.7, 0.99)] (double arithmetic) rounded to two
    decimals, and lies in [[0.70, 0.99]] (in hundredths: between 70 and
    99). *)
Theorem predict_label_and_confidence {G} `{PyRandomSpec G}
    (env : gmap string string) (s : AppState G) :
  let r := fst (app_serve env (GET "/predict") s) in
  let drawn := uniform_value (fl (7 # 10)) (fl (99 # 100))
                 (fst (random (snd (randbelow 3 (st_rng s))))) in
  (exists p, json_field r "prediction" = Some (JStr p) /\
             In p ["positive"; "negative"; "neutral"]) /\
  json_field r "confidence" = Some (JFloat (round2 drawn)) /\
  (70 <= round2 drawn <= 99)%Z.
Proof.
  intros r drawn.
  destruct (serve_predict_run (APP_VERSION_of env) s) as [p [Hin [Hk Hr]]].
  unfold r, app_serve. rewrite Hr.
  split; [exists p; split; [reflexivity | exact Hin] |].
  split; [reflexivity | exact Hk].
Qed.

Lemma predict_label_and_confidence_witness :
  PyRandomSpec tape /\
  (let r := fst (app_serve ∅ (GET "/predict") (start [0%Z; 155296538874845%Z])) in
   let drawn := uniform_value (fl (7 # 10)) (fl (99 # 100))
                  (fst (random (snd (randbelow 3 (st_rng (start [0%Z; 155296538874845%Z])))))) in
   (exists p, json_field r "prediction" = Some (JStr p) /\
              In p ["positive"; "negative"; "neutral"]) /\
   json_field r "confidence" = Some (JFloat (round2 drawn)) /\
   (70 <= round2 drawn <= 99)%Z).
Proof.
  split; [exact tape_random_spec |].
  exact (@predict_label_and_confidence tape _ tape_random_spec ∅ (start [0%Z; 155296538874845%Z])).
Defined.

(** C5 (as claimed, refuted): when the drawn value rounds to 0.70 the
    serialized [confidence] is [0.7], with a single decimal digit. *)
Lemma predict_confidence_serialized_one_digit :
  serialized_confidence (fst (app_serve ∅ (GET "/predict") (start [0%Z; 0%Z]))) = Some "0.7" /\
  digits_after_point "0.7" = 1%nat.
Proof. split; vm_compute; reflexivity. Qed.

(** C5 (amended): the serialized [confidence] of every [GET /predict] is
    Python's shortest float text of a value in [[0.70, 0.99]]: it has two
    decimal digits, except for 0.70, 0.80 and 0.90, written with one
    ([0.7], [0.8], [0.9]). *)
Theorem predict_confidence_serialized_digits {G} `{PyRandomSpec G}
    (env : gmap string string) (s : AppState G) :
  exists k, (70 <= k <= 99)%Z /\
    serialized_confidence (fst (app_serve env (GET "/predict") s)) = Some (py_float_repr k) /\
    digits_after_point (py_float_repr k) = (if (k mod 10 =? 0)%Z then 1 else 2)%nat.
Proof.
  destruct (serve_predict_run (APP_VERSION_of env) s) as [p [_ [Hk Hr]]].
  eexists. split; [exact Hk |]. split.
  - unfold serialized_confidence, app_serve. rewrite Hr. reflexivity.
  - apply confidence_digits; exact Hk.
Qed.

Lemma predict_confidence_serialized_digits_witness :
  PyRandomSpec tape /\
  exists k, (70 <= k <= 99)%Z /\
    serialized_confidence (fst (app_serve ∅ (GET "/predict") (start [2%Z; 0%Z]))) =
      Some (py_float_repr k) /\
    digits_after_point (py_float_repr k) = (if (k mod 10 =? 0)%Z then 1 else 2)%nat.
Proof.
  split; [exact tape_random_spec |].
  exact (@predict_confidence_serialized_digits tape _ tape_random_spec ∅ (start [2%Z; 0%Z])).
Defined.

(** C6 (code as written), at [APP_VERSION] unset: the process starts with
    version ["v1"] and [GET /] answers 200 with
    [{"message": "Hello from FastAPI GitOps v1!", "status": "running"}];
    the greeting names the app "FastAPI GitOps" although [GET /version]
    names it "FastAPI ML GitOps", so the message differs from the
    expected ["Hello from FastAPI ML GitOps v1!"]. *)
Theorem root_greeting_app_name {G} `{PyRandom G} (s : AppState G) :
  response_of ∅ (GET "/") s =
    Some {| status_code := 200; headers := [("content-type", "application/json")];
            resp_body := BJson (JObj [("message", JStr "Hello from FastAPI GitOps v1!");
                                      ("status", JStr "running")]) |} /\
  option_map (fun r => json_field r "app") (response_of ∅ (GET "/version") s) =
    Some (Some (JStr "FastAPI ML GitOps")) /\
  "Hello from FastAPI GitOps v1!" <> "Hello from FastAPI ML GitOps v1!".
Proof.
  split; [| split]; [vm_compute; reflexivity | vm_compute; reflexivity | discriminate].
Qed.

(** C7 (as claimed, refuted): [GET /health/] matches no route, yet the
    answer is a 307 redirect to [/health] with an empty body, neither a 404
    nor a JSON error. *)
Lemma trailing_slash_redirects :
  match_routes app_routes "GET" "/health/" None = NoMatch /\
  fst (app_serve ∅ (GET "/health/") (start [])) =
    {| status_code := 307; headers := [("location", "/health")]; resp_body := BEmpty |}.
Proof. split; vm_compute; reflexivity. Qed.

(** C7 (amended): a request whose path is no route and stays no route when
    its trailing slash is toggled gets 404 with [{"detail": "Not Found"}];
    a request whose path is no route but becomes one when its trailing
    slash is toggled gets a 307 redirect with an empty body; a request to
    one of the four declared paths with a method other than GET gets 405
    with [{"detail": "Method Not Allowed"}] and [allow: GET]. *)
Theorem unmatched_requests_errors {G} `{PyRandom G}
    (env : gmap string string) (s : AppState G) :
  (forall m p,
     Forall (fun rt => rt_path rt <> p) app_routes ->
     Forall (fun rt => rt_path rt <> redirect_path p) app_routes ->
     fst (app_serve env {| req_method := m; req_path := p |} s) =
       http_exception 404 "Not Found" []) /\
  (forall m p,
     Forall (fun rt => rt_path rt <> p) app_routes ->
     p <> "/" ->
     Exists (fun rt => rt_path rt = redirect_path p) app_routes ->
     status_code (fst (app_serve env {| req_method := m; req_path := p |} s)) = 307%Z /\
     resp_body (fst (app_serve env {| req_method := m; req_path := p |} s)) = BEmpty) /\
  (forall m p,
     In p ["/"; "/version"; "/health"; "/predict"] -> m <> "GET" ->
     fst (app_serve env {| req_method := m; req_path := p |} s) =
       http_exception 405 "Method Not Allowed" [("allow", "GET")]).
Proof.
  split; [|split].
  - intros m p Hp Hr. unfold app_serve, serve. simpl req_path. simpl req_method.
    rewrite (match_routes_no_path _ _ _ _ Hp).
    rewrite (existsb_no_path _ _ Hr), andb_false_r. reflexivity.
  - intros m p Hp Hslash Hr. unfold app_serve, serve. simpl req_path. simpl req_method.
    rewrite (match_routes_no_path _ _ _ _ Hp).
    apply String.eqb_neq in Hslash. rewrite Hslash.
    assert (Hex : existsb (fun rt => String.eqb (rt_path rt) (redirect_path p)) app_routes = true).
    { apply existsb_exists. apply List.Exists_exists in Hr.
      destruct Hr as [rt [Hin Heq]]. exists rt. split; [exact Hin |].
      apply String.eqb_eq. exact Heq. }
    rewrite Hex. split; reflexivity.
  - intros m p Hp Hm. apply String.eqb_neq in Hm.
    unfold app_serve, serve. simpl req_path. simpl req_method.
    destruct Hp as [<- | [<- | [<- | [<- | []]]]];
      cbn -[APP_VERSION_of]; rewrite Hm; reflexivity.
Qed.

Lemma unmatched_requests_errors_witness :
  fst (app_serve ∅ {| req_method := "GET"; req_path := "/nonexistent" |} (start [])) =
    http_exception 404 "Not Found" [] /\
  (status_code (fst (app_serve ∅ {| req_method := "GET"; req_path := "/health/" |} (start []))) = 307%Z /\
   resp_body (fst (app_serve ∅ {| req_method := "GET"; req_path := "/health/" |} (start []))) = BEmpty) /\
  fst (app_serve ∅ {| req_method := "POST"; req_path := "/predict" |} (start [])) =
    http_exception 405 "Method Not Allowed" [("allow", "GET")].
Proof.
  destruct (@unmatched_requests_errors tape _ ∅ (start [])) as [H404 [H307 H405]].
  split; [| split].
  - apply H404; repeat constructor; simpl; discriminate.
  - apply H307; [repeat constructor; simpl; discriminate | discriminate |].
    do 6 apply Exists_cons_tl. apply Exists_cons_hd. vm_compute. reflexivity.
  - apply H405; [simpl; tauto | discriminate].
Defined.

(** C8: with the same environment, [GET /], [GET /version] and
    [GET /health] return the same response whatever the state of the
    process (its log and its generator) before the call. *)
Theorem get_handlers_state_independent {G} `{PyRandom G}
    (env : gmap string string) (p : string) (s1 s2 : AppState G) :
  In p ["/"; "/version"; "/health"] ->
  fst (app_serve env (GET p) s1) = fst (app_serve env (GET p) s2).
Proof.
  intros Hp. unfold app_serve, serve.
  destruct Hp as [<- | [<- | [<- | []]]]; cbn -[APP_VERSION_of]; reflexivity.
Qed.

Lemma get_handlers_state_independent_witness :
  In "/version" ["/"; "/version"; "/health"] /\
  fst (app_serve (<["APP_VERSION" := "v2.3"]> ∅) (GET "/version") (start [])) =
  fst (app_serve (<["APP_VERSION" := "v2.3"]> ∅) (GET "/version")
         {| st_log := ["Root endpoint accessed"]; st_rng := [7%Z; 11%Z] |}).
Proof.
  split; [simpl; tauto |].
  apply (@get_handlers_state_independent tape _); simpl; tauto.
Defined.

(** C9: [GET /predict] never fails: it answers 200 with exactly the fields
    [prediction], [confidence], [model_version] and [timestamp], and
    [model_version] is ["1.0.0"]. *)
Theorem predict_always_succeeds {G} `{PyRandomSpec G}
    (env : gmap string string) (s : AppState G) :
  status_code (fst (app_serve env (GET "/predict") s)) = 200%Z /\
  json_keys (fst (app_serve env (GET "/predict") s)) =
    Some ["prediction"; "confidence"; "model_version"; "timestamp"] /\
  json_field (fst (app_serve env (GET "/predict") s)) "model_version" =
    Some (JStr "1.0.0").
Proof.
  destruct (serve_predict_run (APP_VERSION_of env) s) as [p [_ [_ Hr]]].
  unfold app_serve. rewrite Hr. split; [|split]; reflexivity.
Qed.

Lemma predict_always_succeeds_witness :
  PyRandomSpec tape /\
  status_code (fst (app_serve ∅ (GET "/predict") (start []))) = 200%Z /\
  json_keys (fst (app_serve ∅ (GET "/predict") (start []))) =
    Some ["prediction"; "confidence"; "model_version"; "timestamp"] /\
  json_field (fst (app_serve ∅ (GET "/predict") (start []))) "model_version" =
    Some (JStr "1.0.0").
Proof.
  split; [exact tape_random_spec |].
  exact (@predict_always_succeeds tape _ tape_random_spec ∅ (start [])).
Defined.

(** C10: the [timestamp] of every [GET /predict] is the literal
    ["2025-01-27T12:00:00Z"], the same for any two calls whatever the
    process state, and that literal is a valid ISO-8601 UTC instant. *)
Theorem predict_timestamp_constant {G} `{PyRandomSpec G}
    (env : gmap string string) (s1 s2 : AppState G) :
  json_field (fst (app_serve env (GET "/predict") s1)) "timestamp" =
    Some (JStr "2025-01-27T12:00:00Z") /\
  json_field (fst (app_serve env (GET "/predict") s2)) "timestamp" =
    json_field (fst (app_serve env (GET "/predict") s1)) "timestamp" /\
  iso8601_utc "2025-01-27T12:00:00Z" = true.
Proof.
  destruct (serve_predict_run (APP_VERSION_of env) s1) as [p1 [_ [_ Hr1]]].
  destruct (serve_predict_run (APP_VERSION_of env) s2) as [p2 [_ [_ Hr2]]].
  unfold app_serve. rewrite Hr1, Hr2.
  split; [reflexivity | split; [reflexivity | vm_compute; reflexivity]].
Qed.

Lemma predict_timestamp_constant_witness :
  PyRandomSpec tape /\
  json_field (fst (app_serve ∅ (GET "/predict") (start [0%Z; 0%Z]))) "timestamp" =
    Some (JStr "2025-01-27T12:00:00Z") /\
  json_field (fst (app_serve ∅ (GET "/predict") (start [2%Z; 123456789%Z]))) "timestamp" =
    json_field (fst (app_serve ∅ (GET "/predict") (start [0%Z; 0%Z]))) "timestamp" /\
  iso8601_utc "2025-01-27T12:00:00Z" = true.
Proof.
  split; [exact tape_random_spec |].
  exact (@predict_timestamp_constant tape _ tape_random_spec ∅
           (start [0%Z; 0%Z]) (start [2%Z; 123456789%Z])).
Defined.


(* ------------------------------------------------------------------ *)
(** ** Further properties *)

(** X2: [GET /], [GET /version] and [GET /health] each append exactly
    their one fixed log line and leave the generator untouched. *)
Theorem get_handlers_log_one_line {G} `{PyRandom G}
    (env : gmap string string) (s : AppState G) :
  snd (app_serve env (GET "/") s) =
    {| st_log := (st_log s ++ ["Root endpoint accessed"])%list; st_rng := st_rng s |} /\
  snd (app_serve env (GET "/version") s) =
    {| st_log := (st_log s ++ ["Version endpoint accessed"])%list; st_rng := st_rng s |} /\
  snd (app_serve env (GET "/health") s) =
    {| st_log := (st_log s ++ ["Health check endpoint accessed"])%list; st_rng := st_rng s |}.
Proof.
  unfold app_serve. rewrite serve_root_eq, serve_version_eq, serve_health_eq.
  repeat split.
Qed.

(** X3: a request whose path is not [/predict] never draws from the
    generator, whatever its method and whether or not it is routed. *)
Theorem serve_keeps_rng_off_predict {G} `{PyRandom G}
    (env : gmap string string) (req : request) (s : AppState G) :
  req_path req <> "/predict" ->
  st_rng (snd (app_serve env req s)) = st_rng s.
Proof.
  intros Hp. unfold app_serve, serve.
  destruct (match_routes app_routes (req_method req) (req_path req) None) as [rt|rt|] eqn:E.
  - apply match_routes_full in E. destruct E as [Hin Hpath].
    apply run_endpoint_keeps_rng. intros He.
    simpl in Hin.
    repeat (destruct Hin as [<- | Hin]; [simpl in He, Hpath; try discriminate|]);
      [congruence | contradiction].
  - reflexivity.
  - destruct (_ && _); reflexivity.
Qed.

Lemma serve_keeps_rng_off_predict_witness :
  "/docs" <> "/predict" /\
  st_rng (snd (app_serve ∅ {| req_method := "GET"; req_path := "/docs" |} (start [4%Z; 5%Z]))) =
    st_rng (start [4%Z; 5%Z]).
Proof.
  split; [discriminate |].
  apply (@serve_keeps_rng_off_predict tape _). simpl. discriminate.
Defined.

(** X4: a request that no route accepts (wrong path, or a method the
    route does not allow) runs no handler: it logs nothing, draws nothing,
    and is answered with 307, 404 or 405. *)
Theorem unrouted_requests_keep_state {G} `{PyRandom G}
    (env : gmap string string) (req : request) (s : AppState G) :
  Forall (fun rt => rt_path rt <> req_path req \/ ~ In (req_method req) (rt_methods rt))
    app_routes ->
  snd (app_serve env req s) = s /\
  In (status_code (fst (app_serve env req s))) [307%Z; 404%Z; 405%Z].
Proof.
  intros Hno. unfold app_serve, serve.
  destruct (match_routes_not_full _ _ _ Hno None) as [o Ho]. rewrite Ho.
  destruct o as [rt|].
  - simpl. tauto.
  - destruct (_ && _); simpl; tauto.
Qed.

Lemma unrouted_requests_keep_state_witness :
  Forall (fun rt => rt_path rt <> "/predict" \/ ~ In "POST" (rt_methods rt)) app_routes /\
  snd (app_serve ∅ {| req_method := "POST"; req_path := "/predict" |} (start [1%Z])) =
    start [1%Z] /\
  In (status_code (fst (app_serve ∅ {| req_method := "POST"; req_path := "/predict" |}
                          (start [1%Z])))) [307%Z; 404%Z; 405%Z].
Proof.
  assert (Hno : Forall (fun rt => rt_path rt <> "/predict" \/ ~ In "POST" (rt_methods rt))
                  app_routes).
  { unfold app_routes.
    repeat (apply List.Forall_cons;
              [ simpl; first [ left; discriminate
                             | right; intros [Hm | [Hm | []]]; discriminate
                             | right; intros [Hm | []]; discriminate ] | ]).
    apply List.Forall_nil. }
  split; [exact Hno |].
  exact (@unrouted_requests_keep_state tape _ ∅
           {| req_method := "POST"; req_path := "/predict" |} (start [1%Z]) Hno).
Defined.

(** X5: [GET /predict] logs exactly two lines, the access line and
    ["Prediction made: "] followed by the [str] of the very dict it
    returns, and advances the generator by one [_randbelow(3)] and one
    [random()] draw. *)
Theorem predict_logs_returned_result {G} `{PyRandomSpec G}
    (env : gmap string string) (s : AppState G) :
  exists j, resp_body (fst (app_serve env (GET "/predict") s)) = BJson j /\
    st_log (snd (app_serve env (GET "/predict") s)) =
      (st_log s ++ ["Prediction endpoint accessed";
                    ("Prediction made: " ++ py_repr j)%string])%list /\
    st_rng (snd (app_serve env (GET "/predict") s)) =
      snd (random (snd (randbelow 3 (st_rng s)))).
Proof.
  destruct (serve_predict_run (APP_VERSION_of env) s) as [p [_ [_ Hr]]].
  eexists. unfold app_serve. rewrite Hr. split; [reflexivity | split; reflexivity].
Qed.

Lemma predict_logs_returned_result_witness :
  PyRandomSpec tape /\
  exists j, resp_body (fst (app_serve ∅ (GET "/predict") (start [2%Z; 9%Z]))) = BJson j /\
    st_log (snd (app_serve ∅ (GET "/predict") (start [2%Z; 9%Z]))) =
      (st_log (start [2%Z; 9%Z]) ++ ["Prediction endpoint accessed";
                    ("Prediction made: " ++ py_repr j)%string])%list /\
    st_rng (snd (app_serve ∅ (GET "/predict") (start [2%Z; 9%Z]))) =
      snd (random (snd (randbelow 3 (st_rng (start [2%Z; 9%Z]))))).
Proof.
  split; [exact tape_random_spec |].
  exact (@predict_logs_returned_result tape _ tape_random_spec ∅ (start [2%Z; 9%Z])).
Defined.

(** X6: when the app starts with a version that is valid UTF-8 (any
    non-empty such value of [APP_VERSION], or its absence), the four tests
    of test_app.py, run in order against one client, all pass whatever
    the starting process state. *)
Theorem test_module_passes {G} `{PyRandomSpec G}
    (env : gmap string string) (v : string) (s : AppState G) :
  import_app env = Some v -> valid_utf8 v = true ->
  run_test_module env s = Some [true; true; true; true].
Proof.
  intros Hi Hv. unfold run_test_module. rewrite Hi.
  rewrite serve_root_eq, serve_version_eq, serve_health_eq.
  set (s3 := {| st_log := _; st_rng := _ |} : AppState G).
  destruct (serve_predict_run v s3) as [p [Hin [Hk Hr]]]. rewrite Hr.
  unfold json_response. rewrite root_json_utf8, version_json_utf8, health_json_utf8, Hv.
  set (k := round2 _) in Hk |- *.
  unfold test_predict_endpoint. cbn -[k].
  assert (Hp : existsb (fun x => String.eqb p x) ["positive"; "negative"; "neutral"] = true).
  { apply existsb_exists. exists p. split; [exact Hin | apply String.eqb_refl]. }
  simpl in Hp. rewrite Hp.
  replace (Z.leb 0 k) with true by (symmetry; apply Z.leb_le; lia).
  replace (Z.leb k 100) with true by (symmetry; apply Z.leb_le; lia).
  reflexivity.
Qed.

Lemma test_module_passes_witness :
  PyRandomSpec tape /\ import_app (<["APP_VERSION" := "v2.3"]> ∅) = Some "v2.3" /\
  valid_utf8 "v2.3" = true /\
  run_test_module (<["APP_VERSION" := "v2.3"]> ∅) (start [1%Z; 77%Z]) = Some [true; true; true; true].
Proof.
  assert (Hi : import_app (<["APP_VERSION" := "v2.3"]> ∅) = Some "v2.3") by (vm_compute; reflexivity).
  assert (Hv : valid_utf8 "v2.3" = true) by reflexivity.
  split; [exact tape_random_spec | split; [exact Hi | split; [exact Hv |]]].
  exact (@test_module_passes tape _ tape_random_spec _ "v2.3" (start [1%Z; 77%Z]) Hi Hv).
Defined.

(** X7: each of the three labels is returned from some generator state. *)
Theorem every_label_reachable (env : gmap string string) (p : string) :
  In p ["positive"; "negative"; "neutral"] ->
  exists g : tape,
    json_field (fst (app_serve env (GET "/predict") (start g))) "prediction" = Some (JStr p).
Proof.
  intros [<- | [<- | [<- | []]]];
    [exists [0%Z] | exists [1%Z] | exists [2%Z]]; vm_compute; reflexivity.
Qed.

Lemma every_label_reachable_witness :
  In "neutral" ["positive"; "negative"; "neutral"] /\
  exists g : tape,
    json_field (fst (app_serve ∅ (GET "/predict") (start g))) "prediction" =
      Some (JStr "neutral").
Proof.
  split; [simpl; tauto |].
  apply every_label_reachable. simpl. tauto.
Defined.

(** X8: every confidence from 0.70 to 0.99 (70 to 99 hundredths) is
    returned from some generator state, the two ends included. *)
Theorem every_confidence_reachable (env : gmap string string) (k : Z) :
  (70 <= k <= 99)%Z ->
  exists g : tape,
    json_field (fst (app_serve env (GET "/predict") (start g))) "confidence" =
      Some (JFloat k).
Proof.
  intros Hk. exists [0%Z; draw_for k].
  destruct (serve_predict_run (APP_VERSION_of env) (start [0%Z; draw_for k])) as [p [_ [_ Hr]]].
  unfold app_serve. rewrite Hr.
  assert (Hall : forallb (fun n : nat =>
            Z.eqb (round2 (uniform_value (fl (7 # 10)) (fl (99 # 100))
                     (fst (@random tape _ (snd (@randbelow tape _ 3 [0%Z; draw_for (70 + Z.of_nat n)]))))))
                  (70 + Z.of_nat n))
            (seq 0 30) = true) by (vm_compute; reflexivity).
  rewrite forallb_forall in Hall.
  specialize (Hall (Z.to_nat (k - 70)) ltac:(apply in_seq; lia)).
  rewrite Z2Nat.id in Hall by lia.
  replace (70 + (k - 70))%Z with k in Hall by lia.
  apply Z.eqb_eq in Hall.
  rewrite (start_rng [0%Z; draw_for k]), Hall. reflexivity.
Qed.

Lemma every_confidence_reachable_witness :
  (70 <= 99 <= 99)%Z /\
  exists g : tape,
    json_field (fst (app_serve ∅ (GET "/predict") (start g))) "confidence" = Some (JFloat 99).
Proof.
  split; [lia |].
  apply every_confidence_reachable. lia.
Defined.
